(** * AutoGen Studio web routes: [invoke] and [list_models]

    A shallow embedding of the two route handlers of
    [autogenstudio/web/routes/invoke.py] and
    [autogenstudio/web/routes/models.py], and the properties of their
    specification.

    Both handlers are [async def] functions.  A handler is embedded as a
    state-passing computation over the process state [W] (everything the
    awaited collaborators may touch, above all the module-level
    [team_manager] instance) that ends by returning a value or by raising
    an object.  An awaited call is assumed to complete: a run that never
    completes has no counterpart in this model.  Taking the string form of
    a raised object runs that object's [__str__], which may itself raise; it
    is taken not to touch the process state. *)

From Stdlib Require Import String List Bool.
From stdpp Require Import base strings gmap.
Import ListNotations.

Open Scope string_scope.

(** ** The fragment of Python the handlers are written in *)
Module Py.

(** How a call ends. *)
Inductive outcome (E A : Type) : Type :=
| Return (a : A)
| Raise (e : E).
Arguments Return {E A} a.
Arguments Raise {E A} e.

(** What an [except] clause and [str()] observe of a raised object:
    whether it is an instance of [Exception] (every raised object is an
    instance of [BaseException]), and how [str(e)] ends.  [str(e)] runs
    [type(e).__str__]: it returns the string form, or it raises, what
    [__str__] raised or the [TypeError] for a result that is no string. *)
Class Raisable (E : Type) := {
  isinstance_Exception : E -> bool;
  str : E -> outcome E string
}.

(** An awaitable over the process state [W]. *)
Definition coroutine (W E A : Type) : Type := W -> outcome E A * W.

Definition ret {W E A} (a : A) : coroutine W E A :=
  fun w => (Return a, w).

(** A call that leaves the process state alone and ends as [o]. *)
Definition eval {W E A} (o : outcome E A) : coroutine W E A :=
  fun w => (o, w).

(** [x = await c; k x]: a raise in [c] skips [k]. *)
Definition bind {W E A B}
    (c : coroutine W E A) (k : A -> coroutine W E B) : coroutine W E B :=
  fun w =>
    match c w with
    | (Return a, w') => k a w'
    | (Raise e, w') => (Raise e, w')
    end.

(** [try: body / except Exception as e: handler e].  The clause matches
    the instances of [Exception] only; any other raised object leaves
    the statement as it came. *)
Definition try_except_Exception {W E A} `{Raisable E}
    (body : coroutine W E A) (handler : E -> coroutine W E A)
  : coroutine W E A :=
  fun w =>
    match body w with
    | (Return a, w') => (Return a, w')
    | (Raise e, w') =>
        if isinstance_Exception e then handler e w' else (Raise e, w')
    end.

(** Values a request body can carry (the JSON fragment of Python). *)
#[warnings="-register-all"]
Inductive object : Type :=
| PyNone
| PyBool (b : bool)
| PyInt (n : Z)
| PyStr (s : string)
| PyList (l : list object)
| PyDict (d : list (string * object)).

(** A [dict] keeps its keys in insertion order: an association list. *)
Definition dict (V : Type) : Type := list (string * V).

(** [list(d.keys())] *)
Definition keys {V} (d : dict V) : list string := map fst d.

End Py.

Declare Scope py_scope.
Delimit Scope py_scope with py.
Notation "x <~ c ;; k" := (Py.bind c (fun x => k))
  (at level 100, c at next level, right associativity) : py_scope.

(** ** [routes/invoke.py] *)
Module Invoke.

(** [class InvokeTaskRequest(BaseModel)] *)
Record InvokeTaskRequest : Type := {
  task : string;
  team_config : Py.dict Py.object
}.

(** Modelled from the spec: [autogenstudio.datamodel.Response] is imported
    but not part of these sources; the specification gives the envelope as
    [{ message: string, status: boolean, data: optional arbitrary value }].
    [R] is the type of what a run returns. *)
Record Response (R : Type) : Type := {
  message : string;
  status : bool;
  data : option R
}.
Arguments message {R} _.
Arguments status {R} _.
Arguments data {R} _.

(** Attribute assignments [response.data = v], [response.message = v],
    [response.status = v]. *)
Definition set_data {R} (r : Response R) (v : option R) : Response R :=
  {| message := message r; status := status r; data := v |}.
Definition set_message {R} (r : Response R) (v : string) : Response R :=
  {| message := v; status := status r; data := data r |}.
Definition set_status {R} (r : Response R) (v : bool) : Response R :=
  {| message := message r; status := v; data := data r |}.

(** The interface of [autogenstudio.teammanager.TeamManager] the handler
    uses: the awaitable [run(task=..., team_config=...)].  The process-wide
    instance [team_manager = TeamManager()] lives in the state [W]. *)
Class TeamManager (W E R : Type) := {
  run : string -> Py.dict Py.object -> Py.coroutine W E R
}.

Section handler.
Context {W E R : Type} `{Py.Raisable E} `{TeamManager W E R}.

(** [async def invoke(request: InvokeTaskRequest)] *)
Definition invoke (request : InvokeTaskRequest)
  : Py.coroutine W E (Response R) :=
  let response :=
    {| message := "Task successfully completed";
       status := true;
       data := None |} in
  (response <~
     Py.try_except_Exception
       (result_message <~ run (task request) (team_config request) ;;
        Py.ret (set_data response (Some result_message)))
       (fun e =>
          text <~ Py.eval (Py.str e) ;;
          let response := set_message response text in
          let response := set_status response false in
          Py.ret response) ;;
   Py.ret response)%py.

(** The delegated run ended in a way the [try] statement of [invoke]
    absorbs: it returned, or it raised an instance of [Exception] whose
    string form can be taken. *)
Definition absorbed (o : Py.outcome E R) : bool :=
  match o with
  | Py.Return _ => true
  | Py.Raise e =>
      Py.isinstance_Exception e
      && match Py.str e with
         | Py.Return _ => true
         | Py.Raise _ => false
         end
  end.

End handler.

(** Modelled from the spec: the framework behind the decorator
    [@router.post("/")] is not part of these sources.  The specification
    has the envelope a handler returns answered with HTTP 200; when the
    handler raises, it has produced no response and the answer is not the
    handler's. *)
Definition http_status {E A : Type} (o : Py.outcome E A) : option nat :=
  match o with
  | Py.Return _ => Some 200
  | Py.Raise _ => None
  end.

End Invoke.

(** ** [routes/models.py] *)
Module Models.

Section handler.
Context {W E ModelInfo : Type}.

(** The three [_MODEL_INFO] tables the module imports, from
    [autogen_ext.models.anthropic], [autogen_ext.models.ollama] and
    [autogen_ext.models.openai]: model identifier to model description.
    They are not part of these sources and are taken as they come. *)
Variables anthropic_models ollama_models openai_models : Py.dict ModelInfo.

(** [async def list_models() -> Dict[str, List[str]]].  The dict display
    fills the mapping entry by entry, first to last. *)
Definition list_models : Py.coroutine W E (gmap string (list string)) :=
  let response : gmap string (list string) :=
    <["azureOpenAI" := Py.keys openai_models]>
      (<["openAI" := Py.keys openai_models]>
         (<["ollama" := Py.keys ollama_models]>
            (<["anthropic" := Py.keys anthropic_models]> ∅))) in
  Py.ret response.

End handler.

(** The catalog as the specification words it, to compare [list_models]
    with: four lookup tables, one per provider, each provider listing the
    keys of its own table. *)
Definition catalog_of_four_tables {ModelInfo : Type}
    (anthropic ollama openai azure : Py.dict ModelInfo)
  : gmap string (list string) :=
  <["azureOpenAI" := Py.keys azure]>
    (<["openAI" := Py.keys openai]>
       (<["ollama" := Py.keys ollama]>
          (<["anthropic" := Py.keys anthropic]> ∅))).

End Models.

(** ** Concrete collaborators, to run the handlers on *)
Module Sample.

(** A few of Python's built-in raisable classes.  [KeyboardInterrupt],
    [SystemExit] and [asyncio.CancelledError] derive from [BaseException]
    directly; [ValueError] and [RuntimeError] derive from [Exception].
    [Unprintable] stands for a class of the application,
    [class Unprintable(Exception)] with a [__str__] that raises
    [RuntimeError("no text")]. *)
Inductive builtin_error : Type :=
| ValueError (arg : string)
| RuntimeError (arg : string)
| KeyboardInterrupt
| SystemExit
| CancelledError
| Unprintable.

#[export] Instance builtin_error_raisable : Py.Raisable builtin_error := {
  isinstance_Exception e :=
    match e with
    | ValueError _ | RuntimeError _ | Unprintable => true
    | KeyboardInterrupt | SystemExit | CancelledError => false
    end;
  str e :=
    match e with
    | ValueError arg | RuntimeError arg => Py.Return arg
    | KeyboardInterrupt | SystemExit | CancelledError => Py.Return ""
    | Unprintable => Py.Raise (RuntimeError "no text")
    end
}.

(** A team manager for experiments.  Its state counts the runs started.
    An empty task is rejected with a [ValueError], the task ["cancel"] ends
    in a cancellation, the task ["loop"] in a [RuntimeError], the task
    ["garbled"] in an [Unprintable]; any other task is answered with the
    task text itself. *)
#[export] Instance counting_team_manager
  : Invoke.TeamManager nat builtin_error string := {
  run task _ := fun started =>
    if String.eqb task "" then
      (Py.Raise (ValueError "task must not be empty"), started)
    else if String.eqb task "cancel" then
      (Py.Raise CancelledError, S started)
    else if String.eqb task "loop" then
      (Py.Raise (RuntimeError "maximum turns reached"), S started)
    else if String.eqb task "garbled" then
      (Py.Raise Unprintable, S started)
    else
      (Py.Return task, S started)
}.

Definition request_of (task : string) : Invoke.InvokeTaskRequest :=
  {| Invoke.task := task; Invoke.team_config := [("provider", Py.PyStr "x")] |}.

(** Small model tables; the model description is immaterial here. *)
Definition anthropic_table : Py.dict unit :=
  [("claude-3-haiku", tt); ("claude-3-opus", tt)].
Definition ollama_table : Py.dict unit := [("llama3", tt)].
Definition openai_table : Py.dict unit := [("gpt-4o", tt); ("o1", tt)].
Definition empty_table : Py.dict unit := [].

End Sample.

(** * Properties *)

Import Invoke Models.

(** ** The handlers on the sample collaborators *)
Section runs.
Import Sample.

Example invoke_runs_task :
  invoke (request_of "summarise") 3 =
  (Py.Return {| message := "Task successfully completed";
                status := true; data := Some "summarise" |}, 4).
Proof. reflexivity. Qed.

Example invoke_rejected_task :
  invoke (request_of "") 3 =
  (Py.Return {| message := "task must not be empty";
                status := false; data := None |}, 3).
Proof. reflexivity. Qed.

Example invoke_cancelled_task :
  invoke (request_of "cancel") 3 = (Py.Raise CancelledError, 4).
Proof. reflexivity. Qed.

Example invoke_garbled_task :
  invoke (request_of "garbled") 3 = (Py.Raise (RuntimeError "no text"), 4).
Proof. reflexivity. Qed.

Example list_models_sample (w : nat) :
  list_models (E := builtin_error) anthropic_table ollama_table openai_table w =
  (Py.Return
     (<["azureOpenAI" := ["gpt-4o"; "o1"] ]>
        (<["openAI" := ["gpt-4o"; "o1"] ]>
           (<["ollama" := ["llama3"] ]>
              (<["anthropic" := ["claude-3-haiku"; "claude-3-opus"] ]> ∅)))),
   w).
Proof. reflexivity. Qed.

End runs.

(** ** The invoke handler *)
Section invoke_properties.
Context {W E R : Type} `{Py.Raisable E} `{TeamManager W E R}.

(** The handler, by the way the delegated run ended. *)
Lemma invoke_by_run (request : InvokeTaskRequest) (w : W) :
  invoke request w =
  match run (task request) (team_config request) w with
  | (Py.Return r, w') =>
      (Py.Return {| message := "Task successfully completed";
                    status := true; data := Some r |}, w')
  | (Py.Raise e, w') =>
      if Py.isinstance_Exception e
      then match Py.str e with
           | Py.Return text =>
               (Py.Return {| message := text;
                             status := false; data := None |}, w')
           | Py.Raise e' => (Py.Raise e', w')
           end
      else (Py.Raise e, w')
  end.
Proof.
  unfold invoke, Py.bind, Py.try_except_Exception, Py.ret, Py.eval.
  destruct (run (task request) (team_config request) w) as [[r | e] w'];
    [reflexivity |].
  destruct (Py.isinstance_Exception e); [| reflexivity].
  destruct (Py.str e); reflexivity.
Qed.

(** C1.  When the delegated [team_manager.run(task, team_config)] returns
    [r], the handler returns the envelope with [status = True], the message
    ["Task successfully completed"] and [data = r]; the state is the one the
    run left. *)
Theorem invoke_success (request : InvokeTaskRequest) (w w' : W) (r : R) :
  run (task request) (team_config request) w = (Py.Return r, w') ->
  invoke request w =
  (Py.Return {| message := "Task successfully completed";
                status := true; data := Some r |}, w').
Proof.
  intros Hrun. rewrite invoke_by_run, Hrun. reflexivity.
Qed.

(** C2, as amended.  When the delegated run raises an instance of
    [Exception], the object [e] that the handler's clause
    [except Exception as e] binds, and [str(e)] gives its string form, the
    handler returns the envelope with [status = False], that string form as
    the message and [data] left at [None].  Nothing of [e] but its string
    form reaches the envelope: two such failures with the same string form,
    of whatever classes, give the same envelope. *)
Theorem invoke_soft_failure
    (request : InvokeTaskRequest) (w w' : W) (e : E) (text : string) :
  run (task request) (team_config request) w = (Py.Raise e, w') ->
  Py.isinstance_Exception e = true ->
  Py.str e = Py.Return text ->
  invoke request w =
  (Py.Return {| message := text; status := false; data := None |}, w')
  /\ forall (request2 : InvokeTaskRequest) (w2 w2' : W) (e2 : E),
       run (task request2) (team_config request2) w2 = (Py.Raise e2, w2') ->
       Py.isinstance_Exception e2 = true ->
       Py.str e2 = Py.str e ->
       fst (invoke request2 w2) = fst (invoke request w).
Proof.
  intros Hrun Hexc Hstr. split.
  - rewrite invoke_by_run, Hrun, Hexc, Hstr. reflexivity.
  - intros request2 w2 w2' e2 Hrun2 Hexc2 Hstr2.
    rewrite !invoke_by_run, Hrun, Hrun2, Hexc, Hexc2, Hstr2, Hstr.
    reflexivity.
Qed.

(** C3, as amended.  Whenever the delegated run returns, or raises an
    instance of [Exception] whose string form can be taken, the handler does
    not raise: it returns a response envelope, the success one or the soft
    failure, and the answer is the HTTP 200 of a returned envelope. *)
Theorem invoke_returns_envelope (request : InvokeTaskRequest) (w : W) :
  absorbed (fst (run (task request) (team_config request) w)) = true ->
  (exists (response : Response R) (w' : W),
     invoke request w = (Py.Return response, w'))
  /\ http_status (fst (invoke request w)) = Some 200.
Proof.
  intros Habs. rewrite invoke_by_run.
  destruct (run (task request) (team_config request) w) as [[r | e] w'];
    simpl in Habs.
  - split; [eauto | reflexivity].
  - apply andb_true_iff in Habs as [Hexc Hstr]. rewrite Hexc.
    destruct (Py.str e) as [text | e']; [| discriminate].
    split; [eauto | reflexivity].
Qed.

(** C9.  Every envelope the handler returns with [status = True] carries
    the message ["Task successfully completed"], and every envelope it
    returns with [status = False] has [data = None]. *)
Theorem invoke_envelope_invariant
    (request : InvokeTaskRequest) (w w' : W) (response : Response R) :
  invoke request w = (Py.Return response, w') ->
  (status response = true ->
   message response = "Task successfully completed") /\
  (status response = false -> data response = None).
Proof.
  rewrite invoke_by_run.
  destruct (run (task request) (team_config request) w) as [[r | e] w0].
  - intros [= <- _]. simpl. split; [reflexivity | discriminate].
  - destruct (Py.isinstance_Exception e); [| discriminate].
    destruct (Py.str e) as [text | e']; [| discriminate].
    intros [= <- _]. simpl. split; [discriminate | reflexivity].
Qed.

(** C10.  When the delegated run raises an object that is not an instance
    of [Exception], the handler's [except Exception] clause does not match
    it: the handler raises that same object and returns no envelope. *)
Theorem invoke_propagates_non_Exception
    (request : InvokeTaskRequest) (w w' : W) (e : E) :
  run (task request) (team_config request) w = (Py.Raise e, w') ->
  Py.isinstance_Exception e = false ->
  invoke request w = (Py.Raise e, w').
Proof.
  intros Hrun Hexc. rewrite invoke_by_run, Hrun, Hexc. reflexivity.
Qed.

End invoke_properties.

Import Sample.

Lemma invoke_success_witness :
  run "summarise" (team_config (request_of "summarise")) 0
  = (Py.Return "summarise", 1)
  /\ invoke (request_of "summarise") 0 =
     (Py.Return {| message := "Task successfully completed";
                   status := true; data := Some "summarise" |}, 1).
Proof.
  split; [reflexivity |].
  apply (invoke_success (request_of "summarise") 0 1 "summarise").
  reflexivity.
Defined.

Lemma invoke_soft_failure_witness :
  run "loop" (team_config (request_of "loop")) 7
  = (Py.Raise (RuntimeError "maximum turns reached"), 8)
  /\ Py.isinstance_Exception (RuntimeError "maximum turns reached") = true
  /\ Py.str (RuntimeError "maximum turns reached")
     = Py.Return "maximum turns reached"
  /\ invoke (request_of "loop") 7 =
     (Py.Return {| message := "maximum turns reached";
                   status := false; data := None |}, 8).
Proof.
  split; [reflexivity | split; [reflexivity | split; [reflexivity |]]].
  destruct (invoke_soft_failure (request_of "loop") 7 8
              (RuntimeError "maximum turns reached")
              "maximum turns reached") as [Hret _];
    [reflexivity | reflexivity | reflexivity | exact Hret].
Defined.

(** C2, as the claim has it, fails twice over.  A run that ends in a
    cancellation raises an object the clause [except Exception] does not
    match, and the handler raises it.  A run that raises an [Exception]
    whose [__str__] raises makes the handler raise from inside its clause.
    In neither case is there an envelope. *)
Lemma invoke_raise_without_envelope :
  run "cancel" (team_config (request_of "cancel")) 0
  = (Py.Raise CancelledError, 1)
  /\ invoke (request_of "cancel") 0 = (Py.Raise CancelledError, 1)
  /\ run "garbled" (team_config (request_of "garbled")) 0
     = (Py.Raise Unprintable, 1)
  /\ Py.isinstance_Exception Unprintable = true
  /\ invoke (request_of "garbled") 0 = (Py.Raise (RuntimeError "no text"), 1)
  /\ ~ (forall (request : InvokeTaskRequest) (w w' : nat) (e : builtin_error),
          run (task request) (team_config request) w = (Py.Raise e, w') ->
          exists text : string,
            Py.str e = Py.Return text
            /\ invoke request w =
               (Py.Return {| message := text;
                             status := false; data := None |}, w')).
Proof.
  repeat (split; [reflexivity |]).
  intros Hall.
  destruct (Hall (request_of "cancel") 0 1 CancelledError eq_refl)
    as (text & _ & Hret).
  discriminate Hret.
Qed.

(** C3, as the claim has it, fails: a run that ends in a cancellation
    makes the handler raise, and no envelope is returned.  So does a run
    that raises an [Exception] whose string form cannot be taken. *)
Lemma invoke_cancelled_raises :
  invoke (request_of "cancel") 0 = (Py.Raise CancelledError, 1)
  /\ ~ (forall (request : InvokeTaskRequest) (w : nat),
          exists (response : Response string) (w' : nat),
            invoke request w = (Py.Return response, w'))
  /\ invoke (request_of "garbled") 0 = (Py.Raise (RuntimeError "no text"), 1)
  /\ http_status (fst (invoke (request_of "cancel") 0)) <> Some 200.
Proof.
  split; [reflexivity |]. split; [| split; [reflexivity | discriminate]].
  intros Hall. destruct (Hall (request_of "cancel") 0) as (response & w' & Hret).
  discriminate Hret.
Qed.

Lemma invoke_returns_envelope_witness :
  absorbed (fst (run "" (team_config (request_of "")) 2)) = true
  /\ (exists (response : Response string) (w' : nat),
        invoke (request_of "") 2 = (Py.Return response, w'))
  /\ http_status (fst (invoke (request_of "") 2)) = Some 200.
Proof.
  split; [reflexivity |].
  apply (invoke_returns_envelope (request_of "") 2). reflexivity.
Defined.

Lemma invoke_envelope_invariant_witness :
  invoke (request_of "") 2 =
  (Py.Return {| message := "task must not be empty";
                status := false; data := None |}, 2)
  /\ (false = true -> "task must not be empty" = "Task successfully completed")
  /\ (false = false -> @None string = None).
Proof.
  split; [reflexivity |].
  apply (invoke_envelope_invariant (request_of "") 2 2
           {| message := "task must not be empty";
              status := false; data := None |}).
  reflexivity.
Defined.

Lemma invoke_propagates_non_Exception_witness :
  run "cancel" (team_config (request_of "cancel")) 5
  = (Py.Raise CancelledError, 6)
  /\ Py.isinstance_Exception CancelledError = false
  /\ invoke (request_of "cancel") 5 = (Py.Raise CancelledError, 6).
Proof.
  split; [reflexivity | split; [reflexivity |]].
  apply (invoke_propagates_non_Exception (request_of "cancel") 5 6
           CancelledError); reflexivity.
Defined.

(** ** The model-list handler *)

Lemma Return_inj {E A : Type} (a b : A) :
  @Py.Return E A a = Py.Return b -> a = b.
Proof. intros [= ->]. reflexivity. Qed.

(** [list(d.keys())] lists the keys of [d] entry by entry, in the order of
    the table. *)
Lemma keys_in_table_order {V : Type} (d : Py.dict V) (i : nat) :
  Py.keys d !! i = fst <$> d !! i.
Proof. unfold Py.keys. apply list_lookup_fmap. Qed.

Section list_models_properties.
Context {W E ModelInfo : Type}.
Variables anthropic_models ollama_models openai_models : Py.dict ModelInfo.

(** The call, run to its end. *)
Lemma list_models_returns (w : W) :
  list_models (E := E) anthropic_models ollama_models openai_models w =
  (Py.Return
     (<["azureOpenAI" := Py.keys openai_models]>
        (<["openAI" := Py.keys openai_models]>
           (<["ollama" := Py.keys ollama_models]>
              (<["anthropic" := Py.keys anthropic_models]> ∅)))),
   w).
Proof. reflexivity. Qed.

(** C4.  Every call returns a mapping whose keys are exactly
    [anthropic], [ollama], [openAI] and [azureOpenAI]; each key holds a list
    of strings, and every string in it is a model identifier, a key of one
    of the imported tables. *)
Theorem list_models_four_keys (w : W) :
  exists catalog : gmap string (list string),
    list_models (E := E) anthropic_models ollama_models openai_models w
    = (Py.Return catalog, w)
    /\ dom catalog =@{gset string}
       {[ "anthropic"; "ollama"; "openAI"; "azureOpenAI" ]}
    /\ size catalog = 4
    /\ forall provider : string,
         provider ∈ dom catalog ->
         exists ids : list string,
           catalog !! provider = Some ids
           /\ forall id : string,
                id ∈ ids ->
                id ∈ Py.keys anthropic_models
                \/ id ∈ Py.keys ollama_models
                \/ id ∈ Py.keys openai_models.
Proof.
  eexists. split; [apply list_models_returns |].
  split; [| split].
  - rewrite !dom_insert_L, dom_empty_L. set_solver.
  - rewrite !map_size_insert_None, map_size_empty; [reflexivity | ..];
      by simplify_map_eq.
  - intros provider. rewrite !dom_insert_L, dom_empty_L.
    rewrite !elem_of_union, !elem_of_singleton, elem_of_empty.
    intros [-> | [-> | [-> | [-> | []]]]]; simplify_map_eq;
      eexists; (split; [reflexivity | tauto]).
Qed.

(** C5.  In every mapping the handler returns, the entries [openAI] and
    [azureOpenAI] hold the same list, identifier by identifier: the keys of
    the one table [openai_models]. *)
Theorem list_models_openai_azure_same
    (w w' : W) (catalog : gmap string (list string)) :
  list_models (E := E) anthropic_models ollama_models openai_models w
  = (Py.Return catalog, w') ->
  catalog !! "openAI" = catalog !! "azureOpenAI"
  /\ catalog !! "openAI" = Some (Py.keys openai_models).
Proof.
  rewrite list_models_returns. intros [= <- _].
  by simplify_map_eq.
Qed.

(** C6.  The handler is pure: calls in any two states return equal
    mappings, and a call leaves the state it ran in as it was. *)
Theorem list_models_pure (w1 w2 : W) :
  fst (list_models (E := E) anthropic_models ollama_models openai_models w1)
  = fst (list_models (E := E) anthropic_models ollama_models openai_models w2)
  /\ snd (list_models (E := E) anthropic_models ollama_models openai_models w1)
     = w1.
Proof. rewrite !list_models_returns. split; reflexivity. Qed.

(** C7.  In every state the handler returns a catalog, and in none does it
    raise. *)
Theorem list_models_never_fails (w : W) :
  (exists catalog : gmap string (list string),
     list_models (E := E) anthropic_models ollama_models openai_models w
     = (Py.Return catalog, w))
  /\ forall (e : E) (w' : W),
       list_models (E := E) anthropic_models ollama_models openai_models w
       <> (Py.Raise e, w').
Proof.
  rewrite list_models_returns. split; [eauto | discriminate].
Qed.

(** C8, as amended.  The catalog is sourced from three lookup tables.  The
    entries [anthropic], [ollama] and [openAI] list the keys of their own
    tables, and the entry [azureOpenAI] lists the keys of the table of
    [openAI]; each list is in the order of its table.  So the catalog is the
    four-table catalog of the specification with the table of [openAI] in the
    place of a table for [azureOpenAI]. *)
Theorem list_models_three_tables (w : W) :
  exists catalog : gmap string (list string),
    list_models (E := E) anthropic_models ollama_models openai_models w
    = (Py.Return catalog, w)
    /\ catalog !! "anthropic" = Some (Py.keys anthropic_models)
    /\ catalog !! "ollama" = Some (Py.keys ollama_models)
    /\ catalog !! "openAI" = Some (Py.keys openai_models)
    /\ catalog !! "azureOpenAI" = Some (Py.keys openai_models)
    /\ catalog = catalog_of_four_tables
                   anthropic_models ollama_models openai_models openai_models
    /\ forall (table : Py.dict ModelInfo) (i : nat),
         Py.keys table !! i = fst <$> table !! i.
Proof.
  eexists. split; [apply list_models_returns |].
  repeat split; try by simplify_map_eq.
  intros table i. apply keys_in_table_order.
Qed.

End list_models_properties.

Lemma list_models_openai_azure_same_witness :
  list_models (E := builtin_error) anthropic_table ollama_table openai_table 0
  = (Py.Return
       (catalog_of_four_tables
          anthropic_table ollama_table openai_table openai_table), 0)
  /\ catalog_of_four_tables
       anthropic_table ollama_table openai_table openai_table !! "openAI"
     = Some ["gpt-4o"; "o1"].
Proof.
  split; [reflexivity |].
  apply (list_models_openai_azure_same (E := builtin_error)
           anthropic_table ollama_table openai_table 0 0).
  reflexivity.
Defined.

(** C8, as the claim has it, fails: no table of its own stands behind
    [azureOpenAI].  With an empty table of [openAI] the entry is empty, with
    a filled one it is filled, whatever a fourth table would hold. *)
Lemma list_models_no_fourth_table :
  ~ exists azure_models : Py.dict unit,
      forall (anthropic_models ollama_models openai_models : Py.dict unit)
             (w : nat),
        list_models (E := builtin_error)
          anthropic_models ollama_models openai_models w
        = (Py.Return
             (catalog_of_four_tables
                anthropic_models ollama_models openai_models azure_models),
           w).
Proof.
  intros [azure_models Hall].
  pose proof (Hall anthropic_table ollama_table empty_table 0) as Hempty.
  pose proof (Hall anthropic_table ollama_table openai_table 0) as Hfilled.
  rewrite list_models_returns in Hempty, Hfilled.
  apply (f_equal fst), Return_inj in Hempty.
  apply (f_equal fst), Return_inj in Hfilled.
  apply (f_equal (fun catalog : gmap string (list string) =>
                    catalog !! "azureOpenAI")) in Hempty, Hfilled.
  unfold catalog_of_four_tables in Hempty, Hfilled.
  rewrite !lookup_insert_eq in Hempty, Hfilled.
  rewrite <- Hempty in Hfilled. discriminate Hfilled.
Qed.

(** * Further properties of the handlers *)

(** ** What an outcome of [invoke] tells about the delegated run *)
Section invoke_inversion.
Context {W E R : Type} `{Py.Raisable E} `{TeamManager W E R}.


(** X2.  No false success: an envelope returned with [status = True] means
    that the delegated run returned, and [data] is what it returned. *)
Theorem invoke_status_true_inv
    (request : InvokeTaskRequest) (w w' : W) (response : Response R) :
  invoke request w = (Py.Return response, w') ->
  status response = true ->
  exists r : R,
    run (task request) (team_config request) w = (Py.Return r, w')
    /\ response = {| message := "Task successfully completed";
                     status := true; data := Some r |}.
Proof.
  rewrite invoke_by_run.
  destruct (run (task request) (team_config request) w) as [[r | e] w0].
  - intros [= <- <-] _. eauto.
  - destruct (Py.isinstance_Exception e); [| discriminate].
    destruct (Py.str e) as [text | e']; [| discriminate].
    intros [= <- <-]. discriminate.
Qed.

(** X3.  An envelope returned with [status = False] means that the
    delegated run raised an instance of [Exception], and [message] is the
    string form of that very object. *)
Theorem invoke_status_false_inv
    (request : InvokeTaskRequest) (w w' : W) (response : Response R) :
  invoke request w = (Py.Return response, w') ->
  status response = false ->
  exists (e : E) (text : string),
    run (task request) (team_config request) w = (Py.Raise e, w')
    /\ Py.isinstance_Exception e = true
    /\ Py.str e = Py.Return text
    /\ response = {| message := text; status := false; data := None |}.
Proof.
  rewrite invoke_by_run.
  destruct (run (task request) (team_config request) w) as [[r | e] w0].
  - intros [= <- <-]. discriminate.
  - destruct (Py.isinstance_Exception e) eqn:Hexc; [| discriminate].
    destruct (Py.str e) as [text | e'] eqn:Hstr; [| discriminate].
    intros [= <- <-] _. exists e, text. auto.
Qed.



End invoke_inversion.

Lemma invoke_status_true_inv_witness :
  exists r : string,
    run "summarise" (team_config (request_of "summarise")) 0
    = (Py.Return r, 1)
    /\ {| message := "Task successfully completed";
          status := true; data := Some "summarise" |}
       = {| message := "Task successfully completed";
            status := true; data := Some r |}.
Proof.
  apply (invoke_status_true_inv (request_of "summarise") 0 1
           {| message := "Task successfully completed";
              status := true; data := Some "summarise" |});
    reflexivity.
Defined.

Lemma invoke_status_false_inv_witness :
  exists (e : builtin_error) (text : string),
    run "" (team_config (request_of "")) 4 = (Py.Raise e, 4)
    /\ Py.isinstance_Exception e = true
    /\ Py.str e = Py.Return text
    /\ {| message := "task must not be empty";
          status := false; data := @None string |}
       = {| message := text; status := false; data := None |}.
Proof.
  apply (invoke_status_false_inv (request_of "") 4 4
           {| message := "task must not be empty";
              status := false; data := None |});
    reflexivity.
Defined.



(** ** The entries of the catalog and the tables behind them *)
Section catalog_entries.
Context {W E ModelInfo : Type}.
Variables anthropic_models ollama_models openai_models : Py.dict ModelInfo.

(** An entry of the returned mapping is one of the four of the dict
    display; no other key has an entry. *)
Lemma list_models_entry
    (w w' : W) (catalog : gmap string (list string))
    (provider : string) (ids : list string) :
  list_models (E := E) anthropic_models ollama_models openai_models w
  = (Py.Return catalog, w') ->
  catalog !! provider = Some ids ->
  (provider = "anthropic" /\ ids = Py.keys anthropic_models)
  \/ (provider = "ollama" /\ ids = Py.keys ollama_models)
  \/ ((provider = "openAI" \/ provider = "azureOpenAI")
      /\ ids = Py.keys openai_models).
Proof.
  rewrite list_models_returns. intros [= <- _].
  rewrite !lookup_insert_Some, lookup_empty.
  intros [[<- <-] | [_ [[<- <-] | [_ [[<- <-] | [_ [[<- <-] | [_ [=]]]]]]]]];
    eauto 6.
Qed.

(** X5.  A model identifier is listed under a provider exactly when that
    provider's table (for [azureOpenAI], the table of [openAI]) has an entry
    for it: nothing is listed that has no description, and no described
    model is left out. *)
Theorem list_models_lists_table_entries
    (w w' : W) (catalog : gmap string (list string))
    (provider : string) (ids : list string) (id : string) :
  list_models (E := E) anthropic_models ollama_models openai_models w
  = (Py.Return catalog, w') ->
  catalog !! provider = Some ids ->
  id ∈ ids <->
  (provider = "anthropic"
   /\ exists info : ModelInfo, (id, info) ∈ anthropic_models)
  \/ (provider = "ollama"
      /\ exists info : ModelInfo, (id, info) ∈ ollama_models)
  \/ ((provider = "openAI" \/ provider = "azureOpenAI")
      /\ exists info : ModelInfo, (id, info) ∈ openai_models).
Proof.
  intros Hret Hentry.
  assert (Hkeys : forall (table : Py.dict ModelInfo),
             id ∈ Py.keys table <-> exists info, (id, info) ∈ table).
  { intros table. unfold Py.keys. rewrite list_elem_of_fmap. split.
    - intros [[id' info] [-> Hin]]. eauto.
    - intros [info Hin]. exists (id, info). eauto. }
  destruct (list_models_entry w w' catalog provider ids Hret Hentry)
    as [[-> ->] | [[-> ->] | [Hprov ->]]]; rewrite Hkeys.
  - split; [eauto |]. intros [[_ Hin] | [[[=] _] | [[[=] | [=]] _]]]. exact Hin.
  - split; [eauto |]. intros [[[=] _] | [[_ Hin] | [[[=] | [=]] _]]]. exact Hin.
  - split; [eauto |].
    intros [[-> _] | [[-> _] | [_ Hin]]]; [| | exact Hin];
      destruct Hprov as [[=] | [=]].
Qed.

(** X6.  A provider's list has one identifier per entry of its table.  An
    empty table still gives the provider its entry, holding the empty list,
    and a list is empty only when the table is. *)
Theorem list_models_entry_length
    (w w' : W) (catalog : gmap string (list string))
    (provider : string) (ids : list string) :
  list_models (E := E) anthropic_models ollama_models openai_models w
  = (Py.Return catalog, w') ->
  catalog !! provider = Some ids ->
  exists table : Py.dict ModelInfo,
    (provider = "anthropic" /\ table = anthropic_models
     \/ provider = "ollama" /\ table = ollama_models
     \/ (provider = "openAI" \/ provider = "azureOpenAI")
        /\ table = openai_models)
    /\ length ids = length table
    /\ (ids = [] <-> table = []).
Proof.
  intros Hret Hentry.
  assert (Hlen : forall (table : Py.dict ModelInfo),
             length (Py.keys table) = length table
             /\ (Py.keys table = [] <-> table = [])).
  { intros table. unfold Py.keys. split; [apply length_map |].
    destruct table; simpl; split; congruence. }
  destruct (list_models_entry w w' catalog provider ids Hret Hentry)
    as [[-> ->] | [[-> ->] | [Hprov ->]]];
    eexists; (split; [| apply Hlen]); eauto.
Qed.

(** X7.  When the tables are proper dicts, no key twice, no list of the
    catalog names a model twice. *)
Theorem list_models_no_duplicates
    (w w' : W) (catalog : gmap string (list string))
    (provider : string) (ids : list string) :
  NoDup (Py.keys anthropic_models) ->
  NoDup (Py.keys ollama_models) ->
  NoDup (Py.keys openai_models) ->
  list_models (E := E) anthropic_models ollama_models openai_models w
  = (Py.Return catalog, w') ->
  catalog !! provider = Some ids ->
  NoDup ids.
Proof.
  intros Ha Ho Hp Hret Hentry.
  destruct (list_models_entry w w' catalog provider ids Hret Hentry)
    as [[_ ->] | [[_ ->] | [_ ->]]]; assumption.
Qed.

End catalog_entries.

(** X8.  The catalog is a function of the key sequences of the three
    tables and of nothing else, and it determines them: two calls, whatever
    the model descriptions and whatever the states, return equal mappings
    exactly when the tables agree key by key. *)
Theorem list_models_equal_iff_keys
    {W E Info1 Info2 : Type}
    (anthropic1 ollama1 openai1 : Py.dict Info1)
    (anthropic2 ollama2 openai2 : Py.dict Info2) (w1 w2 : W) :
  fst (list_models (E := E) anthropic1 ollama1 openai1 w1)
  = fst (list_models (E := E) anthropic2 ollama2 openai2 w2)
  <-> Py.keys anthropic1 = Py.keys anthropic2
      /\ Py.keys ollama1 = Py.keys ollama2
      /\ Py.keys openai1 = Py.keys openai2.
Proof.
  rewrite !list_models_returns. simpl. split.
  - intros Heq%Return_inj.
    pose proof (f_equal (fun c : gmap string (list string) =>
                           c !! "anthropic") Heq) as Ha.
    pose proof (f_equal (fun c : gmap string (list string) =>
                           c !! "ollama") Heq) as Ho.
    pose proof (f_equal (fun c : gmap string (list string) =>
                           c !! "openAI") Heq) as Hp.
    simpl in Ha, Ho, Hp. simplify_map_eq. done.
  - intros (-> & -> & ->). reflexivity.
Qed.

Lemma list_models_lists_table_entries_witness :
  "o1" ∈ ["gpt-4o"; "o1"] <->
  ("azureOpenAI" = "anthropic"
   /\ exists info : unit, ("o1", info) ∈ anthropic_table)
  \/ ("azureOpenAI" = "ollama"
      /\ exists info : unit, ("o1", info) ∈ ollama_table)
  \/ (("azureOpenAI" = "openAI" \/ "azureOpenAI" = "azureOpenAI")
      /\ exists info : unit, ("o1", info) ∈ openai_table).
Proof.
  apply (list_models_lists_table_entries (E := builtin_error)
           anthropic_table ollama_table openai_table 0 0
           (<["azureOpenAI" := ["gpt-4o"; "o1"] ]>
              (<["openAI" := ["gpt-4o"; "o1"] ]>
                 (<["ollama" := ["llama3"] ]>
                    (<["anthropic" := ["claude-3-haiku"; "claude-3-opus"] ]>
                       ∅))))
           "azureOpenAI" ["gpt-4o"; "o1"] "o1");
    reflexivity.
Defined.

Lemma list_models_entry_length_witness :
  exists table : Py.dict unit,
    ("ollama" = "anthropic" /\ table = anthropic_table
     \/ "ollama" = "ollama" /\ table = empty_table
     \/ ("ollama" = "openAI" \/ "ollama" = "azureOpenAI")
        /\ table = openai_table)
    /\ length (@nil string) = length table
    /\ (@nil string = [] <-> table = []).
Proof.
  apply (list_models_entry_length (E := builtin_error)
           anthropic_table empty_table openai_table 0 0
           (<["azureOpenAI" := ["gpt-4o"; "o1"] ]>
              (<["openAI" := ["gpt-4o"; "o1"] ]>
                 (<["ollama" := [] ]>
                    (<["anthropic" := ["claude-3-haiku"; "claude-3-opus"] ]>
                       ∅))))
           "ollama" []);
    reflexivity.
Defined.

Lemma list_models_no_duplicates_witness :
  NoDup ["claude-3-haiku"; "claude-3-opus"].
Proof.
  apply (list_models_no_duplicates (E := builtin_error)
           anthropic_table ollama_table openai_table 0 0
           (<["azureOpenAI" := ["gpt-4o"; "o1"] ]>
              (<["openAI" := ["gpt-4o"; "o1"] ]>
                 (<["ollama" := ["llama3"] ]>
                    (<["anthropic" := ["claude-3-haiku"; "claude-3-opus"] ]>
                       ∅))))
           "anthropic");
    try reflexivity;
    apply (bool_decide_unpack _); vm_compute; reflexivity.
Defined.

(** ** The two handlers side by side *)
Section handlers_together.
Context {W E R ModelInfo : Type} `{Py.Raisable E} `{TeamManager W E R}.
Variables anthropic_models ollama_models openai_models : Py.dict ModelInfo.

(** X9.  Nothing flows between the two handlers: listing the models and
    then invoking a task ends like invoking first and listing afterwards,
    with the same catalog, the same envelope or raised object, and the same
    state. *)
Theorem list_models_invoke_commute (request : InvokeTaskRequest) (w : W) :
  (catalog <~ list_models anthropic_models ollama_models openai_models ;;
   response <~ invoke request ;;
   Py.ret (catalog, response))%py w
  = (response <~ invoke request ;;
     catalog <~ list_models anthropic_models ollama_models openai_models ;;
     Py.ret (catalog, response))%py w.
Proof.
  unfold Py.bind at 1 3. rewrite list_models_returns.
  unfold Py.bind.
  destruct (invoke request w) as [[response | e] w']; [| reflexivity].
  rewrite list_models_returns. reflexivity.
Qed.

End handlers_together.
